(** * Date utilities of the blog ([src/utils/date.ts])

    The file embeds the two exported functions of [src/utils/date.ts],
    [getFormattedDate] and [getAge], together with the part of the
    ECMAScript platform they call: the [Date] constructor, [Date.parse] for
    the ECMAScript date-time string format, [Date.now], object spread,
    [Intl.DateTimeFormat] and [Date.prototype.toLocaleDateString]
    (ECMA-262, 15th edition, Date objects; ECMA-402, 11th edition,
    DateTimeFormat objects and the locale-sensitive functions of Date).

    What the platform leaves to the implementation (locale data, the
    rendering of a date pattern, the local time zone, the parsing of strings
    outside the standard format) is a parameter of the development, the
    class [Host]. *)

From Stdlib Require Import ZArith QArith Qabs Lia Ascii String.
From stdpp Require Import base strings gmap pretty.

Local Open Scope string_scope.
Local Open Scope Z_scope.

(** ** ECMAScript values and completions *)

Module ES.

(** The errors a primitive of this development can throw. *)
Inductive JsError : Type :=
  | RangeError
  | TypeError.

(** A completion: a normal value or a thrown error. *)
Inductive JsResult (A : Type) : Type :=
  | Ok (a : A)
  | Throw (e : JsError).
Arguments Ok {A} a.
Arguments Throw {A} e.

Definition bindR {A B : Type} (r : JsResult A) (k : A -> JsResult B) : JsResult B :=
  match r with
  | Ok a => k a
  | Throw e => Throw e
  end.

#[global] Instance JsResult_ret : MRet JsResult := @Ok.
#[global] Instance JsResult_bind : MBind JsResult := fun A B k r => bindR r k.

(** A Number: binary64 values are NaN, the two infinities and finite
    rationals (every finite double is a dyadic rational; the sign of zero
    plays no role here). *)
Inductive JsNumber : Type :=
  | NNaN
  | NInfinity (negative : bool)
  | NFinite (q : Q).

Definition NInt (z : Z) : JsNumber := NFinite (inject_Z z).

(** The values an option bag carries. *)
Inductive JsValue : Type :=
  | VUndefined
  | VString (s : string)
  | VBoolean (b : bool)
  | VNumber (z : Z).

(** An option bag: an object read by property name. *)
Abbreviation Options := (gmap string JsValue).

(** ** Time values and the day and year arithmetic of ECMA-262 *)

Definition msPerDay : Z := 86400000.
Definition msPerHour : Z := 3600000.
Definition msPerMinute : Z := 60000.
Definition msPerSecond : Z := 1000.

(** The largest magnitude of a time value, 8.64e15. *)
Definition maxTime : Z := 8640000000000000.

Definition Day (t : Z) : Z := t / msPerDay.
Definition TimeWithinDay (t : Z) : Z := t mod msPerDay.

Definition DaysInYear (y : Z) : Z :=
  if negb (y mod 4 =? 0) then 365
  else if negb (y mod 100 =? 0) then 366
  else if negb (y mod 400 =? 0) then 365
  else 366.

Definition DayFromYear (y : Z) : Z :=
  365 * (y - 1970) + (y - 1969) / 4 - (y - 1901) / 100 + (y - 1601) / 400.

Definition TimeFromYear (y : Z) : Z := msPerDay * DayFromYear y.

Definition InLeapYearOf (y : Z) : Z := if DaysInYear y =? 366 then 1 else 0.

(** [YearFromTime t] is the largest [y] with [TimeFromYear y <= t]: the
    estimate from the 400-year cycle, corrected by at most one year either
    way ([YearFromTime_spec] below). *)
Definition YearFromTime (t : Z) : Z :=
  let y0 := 1970 + (Day t * 400) / 146097 in
  if TimeFromYear (y0 + 1) <=? t then y0 + 1
  else if TimeFromYear y0 <=? t then y0
  else y0 - 1.

Definition InLeapYear (t : Z) : Z := InLeapYearOf (YearFromTime t).

Definition DayWithinYear (t : Z) : Z := Day t - DayFromYear (YearFromTime t).

(** The first day-within-year of month [m] (0 = January) in a year with
    leap-day count [leap]. *)
Definition FirstDayOfMonth (m leap : Z) : Z :=
  match m with
  | 0 => 0
  | 1 => 31
  | 2 => 59 + leap
  | 3 => 90 + leap
  | 4 => 120 + leap
  | 5 => 151 + leap
  | 6 => 181 + leap
  | 7 => 212 + leap
  | 8 => 243 + leap
  | 9 => 273 + leap
  | 10 => 304 + leap
  | 11 => 334 + leap
  | _ => 365 + leap
  end.

Fixpoint month_search (fuel : nat) (m d leap : Z) : Z :=
  match fuel with
  | O => m
  | S fuel' =>
      if d <? FirstDayOfMonth (m + 1) leap then m
      else month_search fuel' (m + 1) d leap
  end.

Definition MonthFromTime (t : Z) : Z :=
  month_search 11 0 (DayWithinYear t) (InLeapYear t).

Definition DateFromTime (t : Z) : Z :=
  DayWithinYear t - FirstDayOfMonth (MonthFromTime t) (InLeapYear t) + 1.

Definition HourFromTime (t : Z) : Z := (t / msPerHour) mod 24.
Definition MinFromTime (t : Z) : Z := (t / msPerMinute) mod 60.
Definition SecFromTime (t : Z) : Z := (t / msPerSecond) mod 60.

Definition MakeTime (hour min sec ms : Z) : Z :=
  hour * msPerHour + min * msPerMinute + sec * msPerSecond + ms.

(** [MakeDay year month date]: the day number of the first of the month
    [month mod 12] of the year [year + month / 12], plus [date - 1]. *)
Definition MakeDay (year month date : Z) : Z :=
  let ym := year + month / 12 in
  let mn := month mod 12 in
  DayFromYear ym + FirstDayOfMonth mn (InLeapYearOf ym) + date - 1.

Definition MakeDate (day time : Z) : Z := day * msPerDay + time.

(** A time value is an integer of magnitude at most [maxTime], or NaN
    ([None]). *)
Definition TimeValue : Type := option Z.

Definition TimeClipZ (t : Z) : TimeValue :=
  if Z.abs t <=? maxTime then Some t else None.

(** [TimeClip] on a Number: NaN for a non-finite or too large argument,
    else the argument truncated toward zero (ToIntegerOrInfinity). *)
Definition TimeClip (n : JsNumber) : TimeValue :=
  match n with
  | NNaN => None
  | NInfinity _ => None
  | NFinite q =>
      if Qle_bool (Qabs q) (inject_Z maxTime)
      then Some (Z.quot (Qnum q) (Z.pos (Qden q)))
      else None
  end.

(** ** The host (implementation-defined behaviour) *)

(** What ECMA-262 and ECMA-402 leave to the implementation.
    - [LocalTZA t isUTC] is the offset of local time in milliseconds;
      offsets are less than a day in magnitude.
    - [parse_fallback] is what [Date.parse] does with a string that is not in
      the standard date-time string format (implementation-specific
      heuristics; NaN is [None]).
    - [dtf_reject locale options] is the error the creation of a formatter
      throws for a locale tag, a time zone or an option value it does not
      accept, if any (a RangeError).
    - [dtf_render locale options t] is the string the formatter resolved
      from [locale] and [options] produces for the finite time value [t]. *)
Class Host : Type := {
  LocalTZA : Z -> bool -> Z;
  LocalTZA_bound : forall t isUTC, Z.abs (LocalTZA t isUTC) < msPerDay;
  parse_fallback : string -> TimeValue;
  dtf_reject : string -> Options -> option JsError;
  dtf_render : string -> Options -> Z -> string
}.

Section WithHost.
Context {host : Host}.

(** [UTC t]: the time value of the local time [t]. *)
Definition UTC (t : Z) : Z := t - LocalTZA t false.

(** ** Date objects *)

Record JsDate : Type := mkDate { DateValue : TimeValue }.

(** The argument of [new Date(value)] in [getFormattedDate]:
    [string | number | Date]. *)
Inductive DateInput : Type :=
  | InString (s : string)
  | InNumber (n : JsNumber)
  | InDate (d : JsDate).

(** *** The date-time string format

    [YYYY], [YYYY-MM], [YYYY-MM-DD], optionally followed by [THH:mm],
    [THH:mm:ss] or [THH:mm:ss.sss] and an offset [Z], [+HH:mm] or [-HH:mm].
    The year is four digits, or a sign and six digits (an expanded year;
    [-000000] is not one). The hour goes up to 24, and 24 only as
    [24:00:00.000], the end of the day. A date-only form is UTC; a
    date-time form without offset is local time. A string with a field out
    of range is not of the format and is left to [parse_fallback]. *)

Definition digit_of (c : ascii) : option Z :=
  let n := Z.of_N (N_of_ascii c) in
  if (48 <=? n) && (n <=? 57) then Some (n - 48) else None.

Fixpoint read_digits (n : nat) (acc : Z) (s : string) : option (Z * string) :=
  match n with
  | O => Some (acc, s)
  | S n' =>
      match s with
      | String c s' => d ← digit_of c; read_digits n' (10 * acc + d) s'
      | EmptyString => None
      end
  end.

Definition in_range (lo hi v : Z) : option unit :=
  if (lo <=? v) && (v <=? hi) then Some tt else None.

Definition DaysInMonth (y m : Z) : Z :=
  FirstDayOfMonth m (InLeapYearOf y) - FirstDayOfMonth (m - 1) (InLeapYearOf y).

(** The offset part: the milliseconds to subtract from the local reading. *)
Definition parse_offset (local : Z) (s : string) : option Z :=
  match s with
  | EmptyString => Some (LocalTZA local false)
  | String "Z" EmptyString => Some 0
  | String sign s1 =>
      sg ← (if Ascii.eqb sign "+" then Some 1
            else if Ascii.eqb sign "-" then Some (-1) else None);
      '(h, s2) ← read_digits 2 0 s1;
      _ ← in_range 0 23 h;
      match s2 with
      | String ":" s3 =>
          '(m, s4) ← read_digits 2 0 s3;
          _ ← in_range 0 59 m;
          match s4 with
          | EmptyString => Some (sg * (h * msPerHour + m * msPerMinute))
          | _ => None
          end
      | _ => None
      end
  end.

(** Hour 24 stands for the end of the day only. *)
Definition end_of_day (h m sec ms : Z) : option unit :=
  if (h =? 24) && negb ((m =? 0) && (sec =? 0) && (ms =? 0)) then None else Some tt.

(** The time part after [T]: the milliseconds within the day and the rest. *)
Definition parse_time (s : string) : option (Z * string) :=
  '(h, s1) ← read_digits 2 0 s;
  _ ← in_range 0 24 h;
  match s1 with
  | String ":" s2 =>
      '(m, s3) ← read_digits 2 0 s2;
      _ ← in_range 0 59 m;
      match s3 with
      | String ":" s4 =>
          '(sec, s5) ← read_digits 2 0 s4;
          _ ← in_range 0 59 sec;
          match s5 with
          | String "." s6 =>
              '(ms, s7) ← read_digits 3 0 s6;
              _ ← end_of_day h m sec ms;
              Some (MakeTime h m sec ms, s7)
          | _ => _ ← end_of_day h m sec 0; Some (MakeTime h m sec 0, s5)
          end
      | _ => _ ← end_of_day h m 0 0; Some (MakeTime h m 0 0, s3)
      end
  | _ => None
  end.

(** The year: four digits, or a sign and six digits. *)
Definition parse_year (s : string) : option (Z * string) :=
  match s with
  | String "+" s1 => read_digits 6 0 s1
  | String "-" s1 =>
      '(y, s2) ← read_digits 6 0 s1;
      if y =? 0 then None else Some (- y, s2)
  | _ => read_digits 4 0 s
  end.

(** The date part: year, month (1-12), day, and the rest. *)
Definition parse_date (s : string) : option (Z * Z * Z * string) :=
  '(y, s1) ← parse_year s;
  match s1 with
  | String "-" s2 =>
      '(m, s3) ← read_digits 2 0 s2;
      _ ← in_range 1 12 m;
      match s3 with
      | String "-" s4 =>
          '(d, s5) ← read_digits 2 0 s4;
          _ ← in_range 1 (DaysInMonth y m) d;
          Some (y, m, d, s5)
      | _ => Some (y, m, 1, s3)
      end
  | _ => Some (y, 1, 1, s1)
  end.

(** [None]: the string is not of the format. *)
Definition parse_es_format (s : string) : option Z :=
  '(y, m, d, rest) ← parse_date s;
  let day := MakeDay y (m - 1) d in
  match rest with
  | EmptyString => Some (MakeDate day 0)
  | String "T" s1 =>
      '(time, s2) ← parse_time s1;
      let local := MakeDate day time in
      off ← parse_offset local s2;
      Some (local - off)
  | _ => None
  end.

(** [Date.parse]: the standard format first, else the host's heuristics. *)
Definition Date_parse (s : string) : TimeValue :=
  match parse_es_format s with
  | Some t => TimeClipZ t
  | None => parse_fallback s
  end.

(** [new Date(value)]: the time value of a Date
    argument, the parse of a String, the Number itself; then [TimeClip]. *)
Definition new_Date (value : DateInput) : JsDate :=
  match value with
  | InDate d => mkDate (tv ← DateValue d; TimeClipZ tv)
  | InString s => mkDate (tv ← Date_parse s; TimeClipZ tv)
  | InNumber n => mkDate (TimeClip n)
  end.

(** [new Date(year, month, date)]: a year from 0 to 99 means 1900 + year;
    the components are read in local time. *)
Definition new_Date_components (year month date : Z) : JsDate :=
  let yr := if (0 <=? year) && (year <=? 99) then 1900 + year else year in
  let finalDate := MakeDate (MakeDay yr month date) (MakeTime 0 0 0 0) in
  mkDate (TimeClipZ (UTC finalDate)).

(** [Date.prototype.getTime]: the time value, NaN is [None]. *)
Definition getTime (d : JsDate) : TimeValue := DateValue d.

(** *** Printing in the date-time string format *)

Definition digit_char (d : Z) : ascii := ascii_of_N (Z.to_N (48 + d)).

(** The [n] decimal digits of [v], most significant first, before [rest]. *)
Fixpoint pad_digits (n : nat) (v : Z) (rest : string) : string :=
  match n with
  | O => rest
  | S n' =>
      String (digit_char (v / 10 ^ Z.of_nat n'))
        (pad_digits n' (v mod 10 ^ Z.of_nat n') rest)
  end.

Definition print_year (y : Z) (rest : string) : string :=
  if (0 <=? y) && (y <=? 9999) then pad_digits 4 y rest
  else String (if 0 <=? y then "+" else "-") (pad_digits 6 (Z.abs y) rest).

Definition msFromTime (t : Z) : Z := t mod msPerSecond.

(** [Date.prototype.toISOString] on the finite time value [t]: the string
    [YYYY-MM-DDTHH:mm:ss.sssZ] of the instant [t], with an expanded year
    outside 0 to 9999. *)
Definition toISOString (t : Z) : string :=
  print_year (YearFromTime t)
    (String "-" (pad_digits 2 (MonthFromTime t + 1)
    (String "-" (pad_digits 2 (DateFromTime t)
    (String "T" (pad_digits 2 (HourFromTime t)
    (String ":" (pad_digits 2 (MinFromTime t)
    (String ":" (pad_digits 2 (SecFromTime t)
    (String "." (pad_digits 3 (msFromTime t)
    (String "Z" EmptyString))))))))))))).

(** ** Option bags and object spread *)

(** [CopyDataProperties target source]: every own property of [source] is
    set on [target]. *)
Definition CopyDataProperties (target source : Options) : Options :=
  map_fold (fun k v acc => <[k := v]> acc) target source.

(** The object literal [{...s1, ...s2, ...}]: a fresh object that receives
    the properties of the sources from left to right. *)
Definition object_spread (sources : list Options) : Options :=
  foldl CopyDataProperties ∅ sources.

(** [Get(options, key)] is not undefined. *)
Definition is_defined (o : Options) (key : string) : bool :=
  match o !! key with
  | None | Some VUndefined => false
  | Some _ => true
  end.

(** ** Intl.DateTimeFormat *)

Inductive Required : Type := ReqDate | ReqTime | ReqAny.
Inductive Defaults : Type := DefDate | DefTime | DefAll.

Definition date_fields : list string := ["weekday"; "year"; "month"; "day"].
Definition time_fields : list string :=
  ["dayPeriod"; "hour"; "minute"; "second"; "fractionalSecondDigits"].

(** The options that name a component of the format. *)
Definition format_components : list string :=
  ["weekday"; "era"; "year"; "month"; "day"; "dayPeriod"; "hour"; "minute";
   "second"; "fractionalSecondDigits"; "timeZoneName"].

Definition set_numeric (keys : list string) (o : Options) : Options :=
  foldl (fun acc k => <[k := VString "numeric"]> acc) o keys.

(** A formatter: the locale and the options it was resolved from. It has no
    operation that changes it. *)
Record DateTimeFormat : Type := mkDateTimeFormat {
  dtf_locale : string;
  dtf_options : Options
}.

(** [CreateDateTimeFormat locales options required defaults], in the order
    of its steps: the locale tag, the time zone and the option values are
    validated first; then a style together with a component, or a style of
    the kind that is not required, is a TypeError; without a style, the
    defaults are filled in when no component of the required kind is
    given. *)
Definition CreateDateTimeFormat (locales : string) (o : Options)
    (required : Required) (defaults : Defaults) : JsResult DateTimeFormat :=
  match dtf_reject locales o with
  | Some e => Throw e
  | None =>
      let dateStyle := is_defined o "dateStyle" in
      let timeStyle := is_defined o "timeStyle" in
      if dateStyle || timeStyle then
        if existsb (is_defined o) format_components then Throw TypeError
        else
          match required, dateStyle, timeStyle with
          | ReqDate, _, true => Throw TypeError
          | ReqTime, true, _ => Throw TypeError
          | _, _, _ => Ok (mkDateTimeFormat locales o)
          end
      else
        let need1 :=
          match required with
          | ReqDate | ReqAny => negb (existsb (is_defined o) date_fields)
          | ReqTime => true
          end in
        let needDefaults :=
          match required with
          | ReqTime | ReqAny => need1 && negb (existsb (is_defined o) time_fields)
          | ReqDate => need1
          end in
        let o1 :=
          match defaults with
          | DefDate | DefAll =>
              if needDefaults then set_numeric ["year"; "month"; "day"] o else o
          | DefTime => o
          end in
        let o2 :=
          match defaults with
          | DefTime | DefAll =>
              if needDefaults then set_numeric ["hour"; "minute"; "second"] o1 else o1
          | DefDate => o1
          end in
        Ok (mkDateTimeFormat locales o2)
  end.

(** [new Intl.DateTimeFormat(locales, options)]: any component may be
    given, and the date components are the defaults. *)
Definition new_DateTimeFormat (locales : string) (options : Options)
    : JsResult DateTimeFormat :=
  CreateDateTimeFormat locales options ReqAny DefDate.

(** [FormatDateTime dateTimeFormat x]: a RangeError for NaN. *)
Definition FormatDateTime (dtf : DateTimeFormat) (x : TimeValue) : JsResult string :=
  match x ≫= TimeClipZ with
  | None => Throw RangeError
  | Some t => Ok (dtf_render (dtf_locale dtf) (dtf_options dtf) t)
  end.

(** [dateTimeFormat.format(date)] on a Date object. *)
Definition DateTimeFormat_format (dtf : DateTimeFormat) (date : JsDate)
    : JsResult string :=
  FormatDateTime dtf (DateValue date).

(** [Date.prototype.toLocaleDateString(locales, options)]: the string
    "Invalid Date" for NaN; else a formatter is created with a date
    component required and the date components as defaults, and it formats
    the time value. *)
Definition toLocaleDateString (this : JsDate) (locales : string)
    (options : Options) : JsResult string :=
  match DateValue this with
  | None => Ok "Invalid Date"
  | Some x =>
      dateFormat ← CreateDateTimeFormat locales options ReqDate DefDate;
      FormatDateTime dateFormat (Some x)
  end.

End WithHost.

End ES.

(** ** The module [src/utils/date.ts] *)

Module DateUtils.
Import ES.

(** [siteConfig.date] of [@/site-config]: the file is not part of the
    sources at hand, so the configuration is a parameter of the module. *)
Record DateConfig : Type := mkDateConfig {
  locale : string;
  options : Options
}.

Record SiteConfig : Type := mkSiteConfig { date : DateConfig }.

(** What the functions of the module can see: the imported binding
    [siteConfig], the module-level constant [dateFormat], and the wall clock
    that [Date.now] reads. *)
Record World : Type := mkWorld {
  siteConfig : SiteConfig;
  dateFormat : DateTimeFormat;
  clock : Z
}.

(** Computations over the world that may throw. *)
Definition M (A : Type) : Type := World -> JsResult A * World.

Definition ret {A : Type} (a : A) : M A := fun w => (Ok a, w).

Definition bind {A B : Type} (m : M A) (k : A -> M B) : M B :=
  fun w =>
    match m w with
    | (Ok a, w') => k a w'
    | (Throw e, w') => (Throw e, w')
    end.

Definition read {A : Type} (f : World -> A) : M A := fun w => (Ok (f w), w).

Definition lift {A : Type} (r : JsResult A) : M A := fun w => (r, w).

#[global] Instance M_ret : MRet M := @ret.
#[global] Instance M_bind : MBind M := fun A B k m => bind m k.

Section WithHost.
Context {host : Host}.

(** [Date.now()]. *)
Definition Date_now : M Z := read clock.

(** Module evaluation: line 3 of the source,
    [const dateFormat = new Intl.DateTimeFormat(siteConfig.date.locale,
    siteConfig.date.options)]. A throw here means the module does not
    load. *)
Definition module_init (cfg : SiteConfig) (now : Z) : JsResult World :=
  df ← new_DateTimeFormat (locale (date cfg)) (options (date cfg));
  Ok (mkWorld cfg df now).

(** [getFormattedDate(date, options?)]; an omitted or undefined [options]
    is [None]. *)
Definition getFormattedDate (date_ : DateInput) (options_ : option Options)
    : M string :=
  match options_ with
  | Some o =>
      cfg ← read siteConfig;
      lift (toLocaleDateString (new_Date date_) (locale (date cfg))
              (object_spread [options (date cfg); o]))
  | None =>
      df ← read dateFormat;
      lift (DateTimeFormat_format df (new_Date date_))
  end.

(** [getAge()]: the result is a Number, NaN being [None]. The operands are
    integers below 2^53 in magnitude, and for such operands the floor of the
    binary64 quotient by 31556952000 is the floor of the exact quotient. *)
Definition getAge : M TimeValue :=
  let birthday := new_Date_components 2003 8 29 in
  now ← Date_now;
  mret (b ← getTime birthday; Some ((now - b) / 31556952000)).

End WithHost.

End DateUtils.

(** ** Concrete hosts and configurations

    A host in the UTC time zone, and the configuration of the spec's
    scenarios: locale [en-US], options
    [{year: "numeric", month: "long", day: "numeric"}]. The renderer of the
    host stands in for locale data; it follows the [en-US] locale for the
    components year, month, day and hour, where every style of a component
    other than a long or a short month is printed as numeric, and it prints
    nothing for the other components and for the date and time styles. A
    second host has the offsets of a zone that moved across the date line
    at the end of 2011. *)

Module Demo.
Import ES DateUtils.

Definition month_names : list string :=
  ["January"; "February"; "March"; "April"; "May"; "June"; "July";
   "August"; "September"; "October"; "November"; "December"].

Definition month_long (m : Z) : string :=
  default EmptyString (month_names !! Z.to_nat m).

Definition month_short (m : Z) : string :=
  String.substring 0 3 (month_long m).

(** A year of the era before year 1 is counted from 1, without a sign. *)
Definition display_year (y : Z) : Z := if y <=? 0 then 1 - y else y.

Definition month_is_text (o : Options) : bool :=
  match o !! "month" with
  | Some (VString "long") | Some (VString "short") => true
  | _ => false
  end.

Definition render_month (o : Options) (t : Z) : string :=
  match o !! "month" with
  | Some (VString "long") => month_long (MonthFromTime t)
  | Some (VString "short") => month_short (MonthFromTime t)
  | _ => pretty (MonthFromTime t + 1)
  end.

(** The date components that are asked for, in the order and with the
    separators of the locale. *)
Definition render_date (o : Options) (t : Z) : string :=
  let y := pretty (display_year (YearFromTime t)) in
  let m := render_month o t in
  let d := pretty (DateFromTime t) in
  let text := month_is_text o in
  match is_defined o "year", is_defined o "month", is_defined o "day" with
  | true, true, true =>
      if text then m +:+ " " +:+ d +:+ ", " +:+ y else m +:+ "/" +:+ d +:+ "/" +:+ y
  | true, true, false => if text then m +:+ " " +:+ y else m +:+ "/" +:+ y
  | false, true, true => if text then m +:+ " " +:+ d else m +:+ "/" +:+ d
  | true, false, true => y +:+ " (day: " +:+ d +:+ ")"
  | true, false, false => y
  | false, true, false => m
  | false, false, true => d
  | false, false, false => EmptyString
  end.

Definition render_hour (t : Z) : string :=
  let h := HourFromTime t in
  pretty (if h mod 12 =? 0 then 12 else h mod 12)
    +:+ (if h <? 12 then " AM" else " PM").

(** The date when a date field is asked for, the hour when the hour is
    asked for, both when both are. *)
Definition render (locale : string) (o : Options) (t : Z) : string :=
  match existsb (is_defined o) date_fields, is_defined o "hour" with
  | true, true => render_date o t +:+ ", " +:+ render_hour t
  | false, true => render_hour t
  | _, false => render_date o t
  end.

(** The empty tag is not a language tag. *)
Definition reject (locale : string) (o : Options) : option JsError :=
  match locale with
  | EmptyString => Some RangeError
  | _ => None
  end.

Definition utc_host : Host := {|
  LocalTZA := fun _ _ => 0;
  LocalTZA_bound := fun _ _ => eq_refl;
  parse_fallback := fun _ => None;
  dtf_reject := reject;
  dtf_render := render
|}.

Definition config : SiteConfig :=
  mkSiteConfig (mkDateConfig "en-US"
    (<["year" := VString "numeric"]>
       (<["month" := VString "long"]> (<["day" := VString "numeric"]> ∅)))).

(** The formatter the module creates from [config] when it loads. *)
Definition formatter : DateTimeFormat :=
  mkDateTimeFormat "en-US" (options (date config)).

Definition world (now : Z) : World := mkWorld config formatter now.

(** The offsets of a zone that was eleven hours behind UTC until the end of
    29 December 2011 and is thirteen hours ahead of it since. *)
Definition dateline_offset (t : Z) : Z :=
  if t <? 1325203200000 then -39600000 else 46800000.

Definition dateline_host : Host := {|
  LocalTZA := fun t _ => dateline_offset t;
  LocalTZA_bound := fun t _ =>
    match (t <? 1325203200000) as b
      return Z.abs (if b then -39600000 else 46800000) < msPerDay
    with
    | true => eq_refl
    | false => eq_refl
    end;
  parse_fallback := fun _ => None;
  dtf_reject := reject;
  dtf_render := render
|}.

(** A configuration that asks for the hour only. *)
Definition config_hour : SiteConfig :=
  mkSiteConfig (mkDateConfig "en-US" {["hour" := VString "numeric"]}).

Definition world_hour (now : Z) : World :=
  mkWorld config_hour (mkDateTimeFormat "en-US" (options (date config_hour))) now.

End Demo.

(** ** The notions the properties are stated with *)

Import ES DateUtils.

(** The length of an average Gregorian year, 365.2425 days of 86400000
    milliseconds each. *)
Definition average_year_ms : Z := 3652425 * 86400000 / 10000.

(** Whole periods of length [period] elapsed from [anchor] to [now],
    truncated downward. *)
Definition elapsed_periods (period anchor now : Z) : Z := (now - anchor) / period.

(** The local reading of the birth date: midnight at the start of
    29 September 2003. *)
Definition birth_local : Z := 1064793600000.

(** The epoch-millisecond value of the birth date on a host. *)
Definition birth_instant `{host : Host} : Z :=
  birth_local - LocalTZA birth_local false.

(** The shallow merge of two option bags, key by key: the value of
    [override] where it has the key, else the value of [base]. *)
Definition shallow_merge (base override : Options) : Options :=
  merge (fun b o => match o with Some v => Some v | None => b end) base override.

(** The options name a date field or a date style, or no time field, and
    they name no time style: a formatter and the one-shot date call resolve
    such options alike. *)
Definition date_like (o : Options) : bool :=
  negb (is_defined o "timeStyle")
  && (existsb (is_defined o) date_fields
      || is_defined o "dateStyle"
      || negb (existsb (is_defined o) time_fields)).

(** Formatting directly, in one shot: the locale-sensitive formatting call
    of the date itself, with the configured locale and options. *)
Definition format_one_shot `{host : Host} (cfg : SiteConfig) (t : DateInput)
    : JsResult string :=
  toLocaleDateString (new_Date t) (locale (date cfg)) (options (date cfg)).

(** The world a module evaluation left, at a later clock reading. *)
Definition at_clock (w : World) (c : Z) : World :=
  mkWorld (siteConfig w) (dateFormat w) c.

(** The local reading of the birthday [k] years after the birth date:
    what [new Date(2003 + k, 8, 29)] reads before the conversion to UTC. *)
Definition birthday_local (k : Z) : Z :=
  MakeDate (MakeDay (2003 + k) 8 29) (MakeTime 0 0 0 0).

(** For the birthday [k]: the local reading is far inside the range of time
    values; [k] average years have elapsed at its start; two days before
    its start [k - 1] have; and up to the birthday 36 so have one day
    before its start. *)
Definition birthday_ages_ok (k : Z) : bool :=
  let e := birthday_local k - birth_local in
  (Z.abs (birthday_local k) <=? maxTime - 3 * msPerDay)
  && (e / 31556952000 =? k)
  && ((e - 2 * msPerDay) / 31556952000 =? k - 1)
  && (negb (k <=? 36) || ((e - msPerDay) / 31556952000 =? k - 1)).

(** * Properties *)

(** ** The calendar arithmetic *)

(** [YearFromTime] meets its definition in ECMA-262: the year of [t] starts
    at or before [t], and the next year starts after [t]. *)
Lemma YearFromTime_spec (t : Z) :
  TimeFromYear (YearFromTime t) <= t < TimeFromYear (YearFromTime t + 1).
Proof.
  unfold YearFromTime, TimeFromYear, DayFromYear, Day, msPerDay.
  set (d := t / 86400000).
  assert (Hd : 86400000 * d <= t < 86400000 * d + 86400000).
  { unfold d. pose proof (Z.div_mod t 86400000 ltac:(lia)).
    pose proof (Z.mod_pos_bound t 86400000 ltac:(lia)). lia. }
  clearbody d.
  repeat match goal with
         | |- context [if ?a <=? ?b then _ else _] => destruct (Z.leb_spec a b)
         end;
    Z.to_euclidean_division_equations; lia.
Qed.

(** ** Printing and parsing the date-time string format *)

Section RoundTrip.
Context {host : Host}.

Lemma DayFromYear_succ (y : Z) : DayFromYear (y + 1) - DayFromYear y = DaysInYear y.
Proof.
  unfold DayFromYear, DaysInYear.
  repeat match goal with
         | |- context [if negb (?a =? ?b) then _ else _] =>
             destruct (Z.eqb_spec a b); cbn [negb]
         end;
    Z.to_euclidean_division_equations; lia.
Qed.

Lemma DaysInYear_leap (y : Z) :
  DaysInYear y = 365 + InLeapYearOf y /\ (InLeapYearOf y = 0 \/ InLeapYearOf y = 1).
Proof.
  unfold InLeapYearOf, DaysInYear.
  repeat match goal with
         | |- context [if negb (?a =? ?b) then _ else _] =>
             destruct (Z.eqb_spec a b); cbn [negb]
         end; cbn; lia.
Qed.

Lemma DayWithinYear_range (t : Z) :
  0 <= DayWithinYear t < 365 + InLeapYear t.
Proof.
  pose proof (YearFromTime_spec t) as Hy.
  pose proof (DayFromYear_succ (YearFromTime t)) as Hs.
  destruct (DaysInYear_leap (YearFromTime t)) as [Hl _].
  unfold DayWithinYear, InLeapYear, Day, TimeFromYear, msPerDay in *.
  rewrite <- Hl, <- Hs.
  Z.to_euclidean_division_equations; lia.
Qed.

Lemma month_search_spec (d leap : Z) :
  leap = 0 \/ leap = 1 ->
  0 <= d < 365 + leap ->
  0 <= month_search 11 0 d leap <= 11
  /\ FirstDayOfMonth (month_search 11 0 d leap) leap <= d
     < FirstDayOfMonth (month_search 11 0 d leap + 1) leap.
Proof.
  intros [-> | ->] Hd; cbn [month_search];
    repeat match goal with
           | |- context [if ?a <? ?b then _ else _] =>
               let c := eval vm_compute in b in
               change b with c;
               destruct (Z.ltb_spec a c)
           end;
    repeat match goal with
           | |- context [FirstDayOfMonth ?m ?l] =>
               let c := eval vm_compute in (FirstDayOfMonth m l) in
               change (FirstDayOfMonth m l) with c
           end; lia.
Qed.

Lemma MonthFromTime_range (t : Z) : 0 <= MonthFromTime t <= 11.
Proof.
  unfold MonthFromTime.
  apply month_search_spec; [| apply DayWithinYear_range].
  unfold InLeapYear. apply DaysInYear_leap.
Qed.

Lemma DateFromTime_range (t : Z) :
  1 <= DateFromTime t <= DaysInMonth (YearFromTime t) (MonthFromTime t + 1).
Proof.
  unfold DateFromTime, DaysInMonth, MonthFromTime.
  destruct (month_search_spec (DayWithinYear t) (InLeapYear t)) as [_ Hm];
    [unfold InLeapYear; apply DaysInYear_leap | apply DayWithinYear_range |].
  rewrite Z.add_simpl_r. fold (InLeapYear t). lia.
Qed.

Lemma MakeDay_of_time (t : Z) :
  MakeDay (YearFromTime t) (MonthFromTime t + 1 - 1) (DateFromTime t) = Day t.
Proof.
  pose proof (MonthFromTime_range t) as Hm.
  unfold MakeDay. rewrite Z.add_simpl_r.
  rewrite Z.div_small, Z.mod_small, Z.add_0_r by lia.
  unfold DateFromTime, DayWithinYear, InLeapYear. lia.
Qed.

Lemma time_fields_range (t : Z) :
  0 <= HourFromTime t <= 23 /\ 0 <= MinFromTime t <= 59
  /\ 0 <= SecFromTime t <= 59 /\ 0 <= msFromTime t < 1000.
Proof.
  unfold HourFromTime, MinFromTime, SecFromTime, msFromTime, msPerSecond.
  Z.to_euclidean_division_equations; lia.
Qed.

Lemma MakeDate_of_time (t : Z) :
  MakeDate (Day t)
    (MakeTime (HourFromTime t) (MinFromTime t) (SecFromTime t) (msFromTime t)) = t.
Proof.
  unfold MakeDate, MakeTime, Day, HourFromTime, MinFromTime, SecFromTime, msFromTime,
    msPerDay, msPerHour, msPerMinute, msPerSecond.
  Z.to_euclidean_division_equations; lia.
Qed.

Lemma YearFromTime_range (t : Z) :
  Z.abs t <= maxTime -> -271821 <= YearFromTime t <= 275760.
Proof.
  intros Ht. unfold YearFromTime, TimeFromYear, DayFromYear, Day, msPerDay, maxTime in *.
  repeat match goal with
         | |- context [if ?a <=? ?b then _ else _] => destruct (Z.leb_spec a b)
         end;
    Z.to_euclidean_division_equations; lia.
Qed.

Lemma digit_of_digit_char (d : Z) : 0 <= d <= 9 -> digit_of (digit_char d) = Some d.
Proof.
  intros Hd.
  assert (Hcases : d = 0 \/ d = 1 \/ d = 2 \/ d = 3 \/ d = 4 \/ d = 5 \/ d = 6
                   \/ d = 7 \/ d = 8 \/ d = 9) by lia.
  repeat destruct Hcases as [-> | Hcases]; try subst d; reflexivity.
Qed.

Lemma bind_Some {A B : Type} (a : A) (k : A -> option B) : Some a ≫= k = k a.
Proof. reflexivity. Qed.

Lemma read_pad_digits (n : nat) :
  forall (v acc : Z) (rest : string),
    0 <= v < 10 ^ Z.of_nat n ->
    read_digits n acc (pad_digits n v rest) = Some (acc * 10 ^ Z.of_nat n + v, rest).
Proof.
  induction n as [| n IH]; intros v acc rest Hv.
  - cbn [read_digits pad_digits]. change (10 ^ Z.of_nat 0) with 1 in *.
    do 2 f_equal. lia.
  - rewrite Nat2Z.inj_succ, Z.pow_succ_r in * by lia.
    set (P := 10 ^ Z.of_nat n) in *.
    assert (HP : 0 < P) by (apply Z.pow_pos_nonneg; lia).
    pose proof (Z.div_mod v P ltac:(lia)) as Hdm.
    pose proof (Z.mod_pos_bound v P HP) as Hmod.
    assert (Hq : 0 <= v / P <= 9).
    { split; [apply Z.div_pos; lia |].
      apply Z.lt_succ_r. apply Z.div_lt_upper_bound; lia. }
    cbn [read_digits pad_digits]. fold P.
    rewrite (digit_of_digit_char _ Hq), bind_Some, IH by (fold P; lia).
    fold P. do 2 f_equal. lia.
Qed.

Lemma read_pad_digits0 (n : nat) (v : Z) (rest : string) :
  0 <= v < 10 ^ Z.of_nat n ->
  read_digits n 0 (pad_digits n v rest) = Some (v, rest).
Proof. intros Hv. rewrite read_pad_digits by assumption. reflexivity. Qed.

Lemma in_range_ok (lo hi v : Z) : lo <= v <= hi -> in_range lo hi v = Some tt.
Proof.
  intros [Hlo Hhi]. unfold in_range.
  apply Z.leb_le in Hlo, Hhi. rewrite Hlo, Hhi. reflexivity.
Qed.

Lemma parse_year_digit (d : Z) (r : string) :
  0 <= d <= 9 ->
  parse_year (String (digit_char d) r) = read_digits 4 0 (String (digit_char d) r).
Proof.
  intros Hd.
  assert (Hcases : d = 0 \/ d = 1 \/ d = 2 \/ d = 3 \/ d = 4 \/ d = 5 \/ d = 6
                   \/ d = 7 \/ d = 8 \/ d = 9) by lia.
  repeat destruct Hcases as [-> | Hcases]; try subst d; reflexivity.
Qed.

Lemma parse_print_year (y : Z) (rest : string) :
  -999999 <= y <= 999999 ->
  parse_year (print_year y rest) = Some (y, rest).
Proof.
  intros Hy. unfold print_year.
  destruct (Z.leb_spec 0 y) as [Hpos | Hneg].
  - destruct (Z.leb_spec y 9999) as [Hsmall | Hbig]; cbn [andb].
    + change (pad_digits 4 y rest) with
        (String (digit_char (y / 10 ^ Z.of_nat 3))
           (pad_digits 3 (y mod 10 ^ Z.of_nat 3) rest)).
      rewrite parse_year_digit.
      * change (String (digit_char (y / 10 ^ Z.of_nat 3))
                  (pad_digits 3 (y mod 10 ^ Z.of_nat 3) rest))
          with (pad_digits 4 y rest).
        apply read_pad_digits0. change (10 ^ Z.of_nat 4) with 10000. lia.
      * change (10 ^ Z.of_nat 3) with 1000.
        Z.to_euclidean_division_equations; lia.
    + cbn [parse_year]. rewrite Z.abs_eq by lia.
      apply read_pad_digits0. change (10 ^ Z.of_nat 6) with 1000000. lia.
  - cbn [andb parse_year].
    rewrite read_pad_digits0 by (change (10 ^ Z.of_nat 6) with 1000000; lia).
    rewrite bind_Some. cbv beta iota.
    destruct (Z.eqb_spec (Z.abs y) 0) as [H0 | _]; [lia |].
    do 2 f_equal. lia.
Qed.

Lemma DaysInMonth_le (y m : Z) : 1 <= m <= 12 -> DaysInMonth y m <= 31.
Proof.
  intros Hm. unfold DaysInMonth.
  destruct (DaysInYear_leap y) as [_ [-> | ->]];
    assert (Hcases : m = 1 \/ m = 2 \/ m = 3 \/ m = 4 \/ m = 5 \/ m = 6 \/ m = 7
                     \/ m = 8 \/ m = 9 \/ m = 10 \/ m = 11 \/ m = 12) by lia;
    repeat destruct Hcases as [-> | Hcases]; try subst m; vm_compute; discriminate.
Qed.

Ltac parse_step :=
  rewrite ?bind_Some; cbv beta iota;
  first [ rewrite read_pad_digits0 by (vm_compute (10 ^ Z.of_nat _); lia)
        | rewrite in_range_ok by lia ].

Lemma parse_print_date (y m d : Z) (rest : string) :
  -999999 <= y <= 999999 ->
  1 <= m <= 12 ->
  1 <= d <= DaysInMonth y m ->
  parse_date (print_year y (String "-" (pad_digits 2 m (String "-" (pad_digits 2 d rest)))))
  = Some (y, m, d, rest).
Proof.
  intros Hy Hm Hd. pose proof (DaysInMonth_le y m Hm) as H31.
  unfold parse_date. rewrite parse_print_year by assumption.
  repeat parse_step. rewrite ?bind_Some. reflexivity.
Qed.

Lemma parse_print_time (h m sec ms : Z) (rest : string) :
  0 <= h <= 23 -> 0 <= m <= 59 -> 0 <= sec <= 59 -> 0 <= ms < 1000 ->
  parse_time (pad_digits 2 h (String ":" (pad_digits 2 m (String ":" (pad_digits 2 sec
                (String "." (pad_digits 3 ms rest)))))))
  = Some (MakeTime h m sec ms, rest).
Proof.
  intros Hh Hm Hs Hms. unfold parse_time.
  repeat parse_step. rewrite ?bind_Some. cbv beta iota.
  unfold end_of_day. destruct (Z.eqb_spec h 24) as [H24 | _]; [lia |].
  reflexivity.
Qed.

(** Every time value is the parse of its own ISO string. *)
Lemma parse_toISOString (t : Z) :
  Z.abs t <= maxTime -> parse_es_format (toISOString t) = Some t.
Proof.
  intros Ht.
  pose proof (YearFromTime_range t Ht) as Hy.
  pose proof (MonthFromTime_range t) as Hm.
  pose proof (DateFromTime_range t) as Hd.
  destruct (time_fields_range t) as (Hh & Hmin & Hsec & Hms).
  unfold parse_es_format, toISOString.
  rewrite parse_print_date by lia.
  rewrite bind_Some. cbv beta iota.
  rewrite parse_print_time by assumption.
  rewrite bind_Some. cbv beta iota.
  change (parse_offset _ (String "Z" EmptyString)) with (Some 0).
  rewrite bind_Some, MakeDay_of_time, MakeDate_of_time. f_equal. lia.
Qed.

End RoundTrip.

(** ** Elapsed whole years: [getAge] *)

Section Age.
Context {host : Host}.

Lemma TimeClipZ_in_range (t : Z) : Z.abs t <= maxTime -> TimeClipZ t = Some t.
Proof.
  intros Hle. unfold TimeClipZ.
  destruct (Z.leb_spec (Z.abs t) maxTime) as [_ | Hgt]; [reflexivity | lia].
Qed.

Lemma birthday_value : getTime (new_Date_components 2003 8 29) = Some birth_instant.
Proof.
  unfold getTime, new_Date_components; cbn [DateValue].
  change (MakeDate (MakeDay (if (0 <=? 2003) && (2003 <=? 99) then 1900 + 2003 else 2003) 8 29)
            (MakeTime 0 0 0 0)) with birth_local.
  apply TimeClipZ_in_range.
  pose proof (LocalTZA_bound birth_local false) as Hb.
  unfold birth_instant, UTC, birth_local, msPerDay, maxTime in *. lia.
Qed.

Lemma getAge_eq (w : World) :
  getAge w = (Ok (Some (elapsed_periods 31556952000 birth_instant (clock w))), w).
Proof.
  unfold getAge. rewrite birthday_value. reflexivity.
Qed.

End Age.

(** C3. [getAge()] leaves the world as it is and returns the floor of the
    current wall-clock time minus the epoch-millisecond value of the birth
    date, divided by 31556952000. The birth date is midnight, local time, at
    the start of 29 September 2003 (month index 8), and 31556952000 is the
    number of milliseconds of 365.2425 days of 86400000 ms: the result is
    the number of whole average-length years elapsed, truncated downward. *)
Theorem getAge_floor_of_elapsed_years `{host : Host} (w : World) :
  getAge w = (Ok (Some ((clock w - birth_instant) / 31556952000)), w)
  /\ (clock w - birth_instant) / 31556952000
     = elapsed_periods average_year_ms birth_instant (clock w)
  /\ average_year_ms = 31556952000
  /\ 10000 * average_year_ms = 3652425 * 86400000
  /\ birth_instant = UTC birth_local
  /\ YearFromTime birth_local = 2003
  /\ MonthFromTime birth_local = 8
  /\ DateFromTime birth_local = 29
  /\ TimeWithinDay birth_local = 0.
Proof.
  split; [apply getAge_eq |].
  repeat split; vm_compute; reflexivity.
Qed.

(** C4, as the code has it. On a host whose local offset from UTC at the
    start of 28 and of 29 September 2025 is within eight hours of its offset
    at the start of the birth date (a host at a constant offset, and every
    daylight saving change, are within that bound): with the clock at local
    midnight of 29 September 2025 ([new Date(2025, 8, 29)]) [getAge()]
    returns 22, and with the clock one day earlier, at local midnight of
    28 September 2025, it returns 21. *)
Theorem getAge_2025 `{host : Host} (w : World) (now29 now28 : Z) :
  getTime (new_Date_components 2025 8 29) = Some now29 ->
  getTime (new_Date_components 2025 8 28) = Some now28 ->
  Z.abs (LocalTZA 1759104000000 false - LocalTZA birth_local false) <= 8 * msPerHour ->
  Z.abs (LocalTZA 1759017600000 false - LocalTZA birth_local false) <= 8 * msPerHour ->
  getAge (mkWorld (siteConfig w) (dateFormat w) now29) =
    (Ok (Some 22), mkWorld (siteConfig w) (dateFormat w) now29)
  /\ getAge (mkWorld (siteConfig w) (dateFormat w) now28) =
    (Ok (Some 21), mkWorld (siteConfig w) (dateFormat w) now28).
Proof.
  intros H29 H28 Hoff29 Hoff28.
  unfold getTime, new_Date_components in H29, H28; cbn [DateValue] in H29, H28.
  change (MakeDate (MakeDay (if (0 <=? 2025) && (2025 <=? 99) then 1900 + 2025 else 2025) 8 29)
            (MakeTime 0 0 0 0)) with 1759104000000 in H29.
  change (MakeDate (MakeDay (if (0 <=? 2025) && (2025 <=? 99) then 1900 + 2025 else 2025) 8 28)
            (MakeTime 0 0 0 0)) with 1759017600000 in H28.
  unfold TimeClipZ in H29, H28.
  destruct (Z.abs (UTC 1759104000000) <=? maxTime); [| discriminate].
  destruct (Z.abs (UTC 1759017600000) <=? maxTime); [| discriminate].
  injection H29 as <-. injection H28 as <-.
  rewrite !getAge_eq; cbn [clock].
  unfold elapsed_periods, birth_instant, UTC, birth_local, msPerHour in *.
  split; do 3 f_equal.
  - symmetry. apply (Z.div_unique_pos _ _ 22
      (1759104000000 - LocalTZA 1759104000000 false
       - (1064793600000 - LocalTZA 1064793600000 false) - 31556952000 * 22)); lia.
  - symmetry. apply (Z.div_unique_pos _ _ 21
      (1759017600000 - LocalTZA 1759017600000 false
       - (1064793600000 - LocalTZA 1064793600000 false) - 31556952000 * 21)); lia.
Qed.

(** On the UTC host the two clock readings are 1759104000000 and
    1759017600000. *)
Lemma getAge_2025_witness :
  @getAge Demo.utc_host (Demo.world 1759104000000) = (Ok (Some 22), Demo.world 1759104000000)
  /\ @getAge Demo.utc_host (Demo.world 1759017600000) = (Ok (Some 21), Demo.world 1759017600000).
Proof.
  apply (@getAge_2025 Demo.utc_host (Demo.world 0) 1759104000000 1759017600000);
    vm_compute; first [reflexivity | discriminate].
Defined.

(** C4, as stated, fails on a host whose zone moved across the date line
    between the two dates: the birth date starts at 1064833200000, eleven
    hours behind UTC, [new Date(2025, 8, 29)] is 1759057200000, thirteen
    hours ahead of it, and at that clock reading [getAge()] returns 21. *)
Lemma getAge_2025_counterexample :
  getTime (@new_Date_components Demo.dateline_host 2003 8 29) = Some 1064833200000
  /\ getTime (@new_Date_components Demo.dateline_host 2025 8 29) = Some 1759057200000
  /\ @getAge Demo.dateline_host (Demo.world 1759057200000)
     = (Ok (Some 21), Demo.world 1759057200000).
Proof. repeat split; vm_compute; reflexivity. Qed.

(** C5. With the anchor fixed, [getAge] sampled at [t1] is at most
    [getAge] sampled at a later [t2], and it is strictly smaller exactly
    when some multiple of the period 31556952000 past the anchor lies in
    the interval (t1, t2]. *)
Theorem getAge_monotone `{host : Host} (w : World) (t1 t2 : Z) :
  t1 < t2 ->
  exists a1 a2 : Z,
    fst (getAge (mkWorld (siteConfig w) (dateFormat w) t1)) = Ok (Some a1)
    /\ fst (getAge (mkWorld (siteConfig w) (dateFormat w) t2)) = Ok (Some a2)
    /\ a1 <= a2
    /\ (a1 < a2 <->
        exists k : Z, t1 < birth_instant + k * 31556952000 <= t2).
Proof.
  intros Hlt.
  exists ((t1 - birth_instant) / 31556952000), ((t2 - birth_instant) / 31556952000).
  rewrite !getAge_eq; cbn [fst clock]; unfold elapsed_periods.
  split; [reflexivity | split; [reflexivity |]].
  set (P := 31556952000).
  assert (HP : 0 < P) by (unfold P; lia).
  pose proof (Z.div_mod (t1 - birth_instant) P ltac:(lia)) as E1.
  pose proof (Z.div_mod (t2 - birth_instant) P ltac:(lia)) as E2.
  pose proof (Z.mod_pos_bound (t1 - birth_instant) P HP) as B1.
  pose proof (Z.mod_pos_bound (t2 - birth_instant) P HP) as B2.
  set (q1 := (t1 - birth_instant) / P) in *.
  set (q2 := (t2 - birth_instant) / P) in *.
  split; [nia | split].
  - intros Hq. exists q2. nia.
  - intros [k Hk]. nia.
Qed.

Lemma getAge_monotone_witness :
  exists a1 a2 : Z,
    fst (@getAge Demo.utc_host (Demo.world 1759017600000)) = Ok (Some a1)
    /\ fst (@getAge Demo.utc_host (Demo.world 1759104000000)) = Ok (Some a2)
    /\ a1 <= a2
    /\ (a1 < a2 <->
        exists k : Z,
          1759017600000 < birth_instant (host := Demo.utc_host) + k * 31556952000 <= 1759104000000).
Proof.
  apply (@getAge_monotone Demo.utc_host (Demo.world 0) 1759017600000 1759104000000).
  lia.
Defined.

(** C6. At every clock reading at or after the birth instant [getAge()]
    returns a non-negative integer, and at every clock reading before it
    (an anchor in the future) a negative integer; in both cases the call
    returns a value and is no error. *)
Theorem getAge_sign `{host : Host} (w : World) :
  exists a : Z,
    getAge w = (Ok (Some a), w)
    /\ (birth_instant <= clock w -> 0 <= a)
    /\ (clock w < birth_instant -> a < 0).
Proof.
  exists ((clock w - birth_instant) / 31556952000).
  split; [apply getAge_eq |].
  split; intros H.
  - apply Z.div_pos; lia.
  - apply Z.div_lt_upper_bound; lia.
Qed.

Lemma getAge_sign_witness :
  (exists a : Z,
     @getAge Demo.utc_host (Demo.world 1759104000000) = (Ok (Some a), Demo.world 1759104000000)
     /\ 0 <= a)
  /\ (exists a : Z,
     @getAge Demo.utc_host (Demo.world 0) = (Ok (Some a), Demo.world 0) /\ a < 0).
Proof.
  split.
  - destruct (@getAge_sign Demo.utc_host (Demo.world 1759104000000)) as (a & Ha & Hpos & _).
    exists a. split; [exact Ha |]. apply Hpos. vm_compute. discriminate.
  - destruct (@getAge_sign Demo.utc_host (Demo.world 0)) as (a & Ha & _ & Hneg).
    exists a. split; [exact Ha |]. apply Hneg. vm_compute. reflexivity.
Defined.

(** ** Formatting: [getFormattedDate] *)

Section ObjectSpread.

Lemma lookup_shallow_merge (base override : Options) (k : string) :
  shallow_merge base override !! k =
    match override !! k with
    | Some v => Some v
    | None => base !! k
    end.
Proof.
  unfold shallow_merge. rewrite lookup_merge.
  destruct (base !! k), (override !! k); reflexivity.
Qed.

Lemma lookup_CopyDataProperties (target source : Options) (k : string) :
  CopyDataProperties target source !! k =
    match source !! k with
    | Some v => Some v
    | None => target !! k
    end.
Proof.
  unfold CopyDataProperties. revert k.
  apply (map_fold_weak_ind
           (fun (r m : Options) => forall k : string,
              r !! k = match m !! k with Some v => Some v | None => target !! k end)).
  - intros k. rewrite lookup_empty. reflexivity.
  - intros i x m r Hfresh IH k.
    destruct (decide (i = k)) as [-> | Hne].
    + rewrite !lookup_insert_eq. reflexivity.
    + rewrite !lookup_insert_ne by assumption. apply IH.
Qed.

Lemma object_spread_pair (base override : Options) :
  object_spread [base; override] = shallow_merge base override.
Proof.
  apply map_eq. intros k. unfold object_spread; cbn [foldl].
  rewrite lookup_shallow_merge, !lookup_CopyDataProperties, lookup_empty.
  destruct (override !! k), (base !! k); reflexivity.
Qed.

Lemma shallow_merge_empty (base : Options) : shallow_merge base ∅ = base.
Proof.
  apply map_eq. intros k. rewrite lookup_shallow_merge, lookup_empty. reflexivity.
Qed.

End ObjectSpread.

Section Formatting.
Context {host : Host}.

Lemma module_init_inv (cfg : SiteConfig) (t0 : Z) (w : World) :
  module_init cfg t0 = Ok w ->
  siteConfig w = cfg
  /\ new_DateTimeFormat (locale (date cfg)) (options (date cfg)) = Ok (dateFormat w).
Proof.
  unfold module_init. intros H.
  destruct (new_DateTimeFormat (locale (date cfg)) (options (date cfg))) as [df | e];
    cbn in H; [| discriminate].
  injection H as <-. split; reflexivity.
Qed.

Lemma getFormattedDate_default_eq (t : DateInput) (w : World) :
  getFormattedDate t None w = (DateTimeFormat_format (dateFormat w) (new_Date t), w).
Proof. reflexivity. Qed.

Lemma getFormattedDate_override_eq (t : DateInput) (o : Options) (w : World) :
  getFormattedDate t (Some o) w =
    (toLocaleDateString (new_Date t) (locale (date (siteConfig w)))
       (shallow_merge (options (date (siteConfig w))) o), w).
Proof.
  cbn. unfold lift. rewrite <- object_spread_pair. reflexivity.
Qed.

Lemma TimeClipZ_idem (t : Z) : TimeClipZ t ≫= TimeClipZ = TimeClipZ t.
Proof.
  unfold TimeClipZ. destruct (Z.abs t <=? maxTime) eqn:E; cbn; [| reflexivity].
  unfold TimeClipZ. rewrite E. reflexivity.
Qed.

Lemma TimeClip_NInt (t : Z) : TimeClip (NInt t) = TimeClipZ t.
Proof.
  unfold TimeClip, TimeClipZ, NInt, inject_Z; cbn [Qnum Qden].
  rewrite Z.quot_1_r.
  unfold Qle_bool, Qabs; cbn [Qnum Qden]. rewrite !Z.mul_1_r. reflexivity.
Qed.

Lemma new_Date_clipped (t : DateInput) :
  DateValue (new_Date t) ≫= TimeClipZ = DateValue (new_Date t).
Proof.
  destruct t as [s | n | d]; cbn [new_Date DateValue].
  - destruct (Date_parse s) as [x |]; cbn; [apply TimeClipZ_idem | reflexivity].
  - destruct n as [| b | q]; cbn; try reflexivity.
    destruct (Qle_bool (Qabs q) (inject_Z maxTime)) eqn:E; cbn; [| reflexivity].
    apply TimeClipZ_in_range. apply Qle_bool_iff in E.
    destruct q as [n d]. unfold Qabs, Qle, inject_Z in E; cbn [Qnum Qden] in *.
    rewrite Z.mul_1_r in E.
    rewrite <- Z.quot_abs by lia. change (Z.abs (Z.pos d)) with (Z.pos d).
    rewrite Z.quot_div_nonneg by lia.
    apply Z.div_le_upper_bound; lia.
  - destruct (DateValue d) as [x |]; cbn; [apply TimeClipZ_idem | reflexivity].
Qed.

End Formatting.

Section Resolution.
Context {host : Host}.

Lemma bind_Ok {A B : Type} (a : A) (k : A -> JsResult B) : Ok a ≫= k = k a.
Proof. reflexivity. Qed.

(** For date-like options, requiring a date component creates the
    formatter that allowing any component creates. *)
Lemma create_date_as_any (l : string) (o : Options) :
  date_like o = true ->
  CreateDateTimeFormat l o ReqDate DefDate = CreateDateTimeFormat l o ReqAny DefDate.
Proof.
  unfold date_like, CreateDateTimeFormat. intros Hlike.
  destruct (dtf_reject l o); [reflexivity |].
  destruct (is_defined o "timeStyle"); [discriminate |].
  destruct (is_defined o "dateStyle"); cbn [orb].
  - destruct (existsb (is_defined o) format_components); reflexivity.
  - destruct (existsb (is_defined o) date_fields); [reflexivity |].
    destruct (existsb (is_defined o) time_fields); [discriminate | reflexivity].
Qed.

(** For a finite time value and date-like options, the one-shot date call
    is the formatter made from the same locale and options, applied. *)
Lemma toLocaleDateString_as_formatter (l : string) (o : Options)
    (df : DateTimeFormat) (x : Z) :
  date_like o = true ->
  new_DateTimeFormat l o = Ok df ->
  toLocaleDateString (mkDate (Some x)) l o = FormatDateTime df (Some x).
Proof.
  intros Hlike Hdf.
  unfold toLocaleDateString; cbn [DateValue].
  rewrite (create_date_as_any l o Hlike).
  unfold new_DateTimeFormat in Hdf. rewrite Hdf. reflexivity.
Qed.

End Resolution.

(** C1, as the code has it. Once the module has loaded from a
    configuration, the world holds that configuration and the cached
    formatter holds its locale, and its options unchanged when they name a
    date component. At every later clock reading, for a date input that
    denotes an instant and configured options that are date-like, the call
    without override options returns exactly what formatting the input
    directly does, in one shot with [siteConfig.date.locale] and
    [siteConfig.date.options]: the same string, or the same error. For a
    date input that denotes no instant the call throws the RangeError of
    the formatter, where the one-shot call returns "Invalid Date". *)
Theorem getFormattedDate_default_is_one_shot `{host : Host}
    (cfg : SiteConfig) (t0 : Z) (w : World) (t : DateInput) (c : Z) :
  module_init cfg t0 = Ok w ->
  (siteConfig w = cfg
   /\ dtf_locale (dateFormat w) = locale (date cfg)
   /\ (existsb (is_defined (options (date cfg))) date_fields = true ->
       dtf_options (dateFormat w) = options (date cfg)))
  /\ (forall x : Z,
        DateValue (new_Date t) = Some x ->
        date_like (options (date cfg)) = true ->
        getFormattedDate t None (at_clock w c) = (format_one_shot cfg t, at_clock w c))
  /\ (DateValue (new_Date t) = None ->
        getFormattedDate t None (at_clock w c) = (Throw RangeError, at_clock w c)
        /\ format_one_shot cfg t = Ok "Invalid Date").
Proof.
  intros Hinit.
  destruct (module_init_inv cfg t0 w Hinit) as [Hcfg Hdf].
  split; [split; [exact Hcfg | split] | split].
  - unfold new_DateTimeFormat, CreateDateTimeFormat in Hdf.
    destruct (dtf_reject (locale (date cfg)) (options (date cfg))); [discriminate |].
    repeat match type of Hdf with
           | context [if ?b then _ else _] => destruct b
           end;
      first [discriminate Hdf | injection Hdf as <-; reflexivity].
  - intros Hfields.
    unfold new_DateTimeFormat, CreateDateTimeFormat in Hdf.
    destruct (dtf_reject (locale (date cfg)) (options (date cfg))); [discriminate |].
    rewrite Hfields in Hdf. cbn [negb andb] in Hdf.
    repeat match type of Hdf with
           | context [if ?b then _ else _] => destruct b
           end;
      first [discriminate Hdf | injection Hdf as <-; reflexivity].
  - intros x Hx Hlike.
    rewrite getFormattedDate_default_eq; cbn [at_clock dateFormat].
    f_equal. unfold DateTimeFormat_format, format_one_shot.
    destruct (new_Date t) as [tv]; cbn [DateValue] in *. subst tv.
    symmetry. apply toLocaleDateString_as_formatter; assumption.
  - intros Hnan. split.
    + rewrite getFormattedDate_default_eq.
      unfold DateTimeFormat_format, FormatDateTime. rewrite Hnan. reflexivity.
    + unfold format_one_shot, toLocaleDateString. rewrite Hnan. reflexivity.
Qed.

Lemma getFormattedDate_default_is_one_shot_witness :
  module_init (host := Demo.utc_host) Demo.config 0 = Ok (Demo.world 0)
  /\ getFormattedDate (host := Demo.utc_host) (InNumber (NInt 1713830400000)) None
       (at_clock (Demo.world 0) 5)
     = (format_one_shot (host := Demo.utc_host) Demo.config (InNumber (NInt 1713830400000)),
        at_clock (Demo.world 0) 5)
  /\ dtf_options (dateFormat (Demo.world 0)) = options (date Demo.config).
Proof.
  assert (H : module_init (host := Demo.utc_host) Demo.config 0 = Ok (Demo.world 0))
    by (vm_compute; reflexivity).
  split; [exact H |].
  destruct (@getFormattedDate_default_is_one_shot Demo.utc_host Demo.config 0 (Demo.world 0)
              (InNumber (NInt 1713830400000)) 5 H) as ((_ & _ & Hopts) & Hone & _).
  split.
  - apply (Hone 1713830400000); vm_compute; reflexivity.
  - apply Hopts. vm_compute. reflexivity.
Defined.

(** C1, as stated, fails: for the Number NaN the call without override
    throws a RangeError, and formatting NaN in one shot with the configured
    locale and options returns "Invalid Date". *)
Lemma getFormattedDate_default_one_shot_counterexample :
  module_init (host := Demo.utc_host) Demo.config 0 = Ok (Demo.world 0)
  /\ fst (getFormattedDate (host := Demo.utc_host) (InNumber NNaN) None (Demo.world 0))
     = Throw RangeError
  /\ format_one_shot (host := Demo.utc_host) Demo.config (InNumber NNaN) = Ok "Invalid Date"
  /\ ~ (forall t : DateInput,
          fst (getFormattedDate (host := Demo.utc_host) t None (Demo.world 0))
          = format_one_shot (host := Demo.utc_host) Demo.config t).
Proof.
  split; [vm_compute; reflexivity |].
  split; [vm_compute; reflexivity |].
  split; [vm_compute; reflexivity |].
  intros H. specialize (H (InNumber NNaN)). vm_compute in H. discriminate H.
Qed.

(** C2. For every date input and every override options map, the call
    with the override returns what [toLocaleDateString] returns for the
    date with locale [siteConfig.date.locale] and the shallow merge of
    [siteConfig.date.options] with the override; in the merge a key of the
    override has the override's value, and a key absent from the override
    has the value of [siteConfig.date.options]. *)
Theorem getFormattedDate_override_merges `{host : Host}
    (w : World) (t : DateInput) (o : Options) :
  getFormattedDate t (Some o) w =
    (toLocaleDateString (new_Date t) (locale (date (siteConfig w)))
       (shallow_merge (options (date (siteConfig w))) o), w)
  /\ object_spread [options (date (siteConfig w)); o]
     = shallow_merge (options (date (siteConfig w))) o
  /\ forall k : string,
       shallow_merge (options (date (siteConfig w))) o !! k =
         match o !! k with
         | Some v => Some v
         | None => options (date (siteConfig w)) !! k
         end.
Proof.
  split; [apply getFormattedDate_override_eq |].
  split; [apply object_spread_pair |].
  intros k. apply lookup_shallow_merge.
Qed.

(** C7. [getFormattedDate] adds no error and hides none: on the cached
    path its completion is that of the formatter's [format] on
    [new Date(input)], on the override path that of [toLocaleDateString],
    a string or the error the primitive throws, and the world is left as it
    is. An input that denotes no instant is neither rejected nor replaced:
    the override path yields the primitive's string "Invalid Date" and the
    cached path lets the primitive's RangeError through. An input that
    denotes an instant yields a string on the cached path. *)
Theorem getFormattedDate_propagates `{host : Host} (w : World) (t : DateInput) :
  getFormattedDate t None w = (DateTimeFormat_format (dateFormat w) (new_Date t), w)
  /\ (forall o : Options,
        getFormattedDate t (Some o) w =
          (toLocaleDateString (new_Date t) (locale (date (siteConfig w)))
             (object_spread [options (date (siteConfig w)); o]), w))
  /\ (DateValue (new_Date t) = None ->
        getFormattedDate t None w = (Throw RangeError, w)
        /\ forall o : Options, getFormattedDate t (Some o) w = (Ok "Invalid Date", w))
  /\ (forall x : Z, DateValue (new_Date t) = Some x ->
        exists s : string, getFormattedDate t None w = (Ok s, w)).
Proof.
  split; [reflexivity | split; [reflexivity |]].
  split.
  - intros Hnan. split.
    + rewrite getFormattedDate_default_eq.
      unfold DateTimeFormat_format, FormatDateTime. rewrite Hnan. reflexivity.
    + intros o. cbn. unfold lift, toLocaleDateString. rewrite Hnan. reflexivity.
  - intros x Hx.
    exists (dtf_render (dtf_locale (dateFormat w)) (dtf_options (dateFormat w)) x).
    rewrite getFormattedDate_default_eq.
    unfold DateTimeFormat_format, FormatDateTime.
    rewrite new_Date_clipped, Hx. reflexivity.
Qed.

Lemma getFormattedDate_propagates_witness :
  getFormattedDate (host := Demo.utc_host) (InString "not a date") None (Demo.world 0)
    = (Throw RangeError, Demo.world 0)
  /\ forall o : Options,
       getFormattedDate (host := Demo.utc_host) (InString "not a date") (Some o) (Demo.world 0)
         = (Ok "Invalid Date", Demo.world 0).
Proof.
  apply (proj1 (proj2 (proj2
    (@getFormattedDate_propagates Demo.utc_host (Demo.world 0) (InString "not a date"))))).
  vm_compute. reflexivity.
Defined.

(** C8. The integer [t], every string of the date-time string format
    that denotes the instant [t], and a Date object holding [t] are
    formatted alike, with or without override options. Every time value
    [t] (an integer of magnitude at most 8640000000000000) has such a
    string: its ISO string [YYYY-MM-DDTHH:mm:ss.sssZ] parses to [t], and is
    formatted as [t] is. *)
Theorem getFormattedDate_input_variants `{host : Host}
    (w : World) (t : Z) (o : option Options) :
  (forall s : string,
     parse_es_format s = Some t ->
     getFormattedDate (InString s) o w = getFormattedDate (InNumber (NInt t)) o w)
  /\ getFormattedDate (InDate (new_Date (InNumber (NInt t)))) o w
     = getFormattedDate (InNumber (NInt t)) o w
  /\ (Z.abs t <= maxTime ->
      parse_es_format (toISOString t) = Some t
      /\ getFormattedDate (InString (toISOString t)) o w
         = getFormattedDate (InNumber (NInt t)) o w).
Proof.
  assert (Hs : forall s, parse_es_format s = Some t ->
                 new_Date (InString s) = new_Date (InNumber (NInt t))).
  { intros s Hparse. cbn [new_Date]. unfold Date_parse.
    rewrite Hparse, TimeClip_NInt, TimeClipZ_idem. reflexivity. }
  assert (Hd : new_Date (InDate (new_Date (InNumber (NInt t)))) = new_Date (InNumber (NInt t))).
  { cbn [new_Date DateValue]. rewrite TimeClip_NInt, TimeClipZ_idem. reflexivity. }
  assert (Hstr : forall s, parse_es_format s = Some t ->
                   getFormattedDate (InString s) o w
                   = getFormattedDate (InNumber (NInt t)) o w).
  { intros s Hparse. destruct o as [o |].
    - rewrite !getFormattedDate_override_eq, (Hs s Hparse). reflexivity.
    - rewrite !getFormattedDate_default_eq, (Hs s Hparse). reflexivity. }
  split; [exact Hstr | split].
  - destruct o as [o |].
    + rewrite !getFormattedDate_override_eq, Hd. reflexivity.
    + rewrite !getFormattedDate_default_eq, Hd. reflexivity.
  - intros Ht. pose proof (parse_toISOString t Ht) as Hiso.
    split; [exact Hiso | apply Hstr, Hiso].
Qed.

(** [format(1713830400000)] and [format("2024-04-23T00:00:00Z")]. *)
Lemma getFormattedDate_input_variants_witness :
  parse_es_format (host := Demo.utc_host) "2024-04-23T00:00:00Z" = Some 1713830400000
  /\ toISOString 1713830400000 = "2024-04-23T00:00:00.000Z"
  /\ forall o : option Options,
       getFormattedDate (host := Demo.utc_host) (InString "2024-04-23T00:00:00Z") o (Demo.world 0)
       = getFormattedDate (host := Demo.utc_host) (InNumber (NInt 1713830400000)) o (Demo.world 0)
       /\ getFormattedDate (host := Demo.utc_host) (InString (toISOString 1713830400000)) o
            (Demo.world 0)
          = getFormattedDate (host := Demo.utc_host) (InNumber (NInt 1713830400000)) o
              (Demo.world 0).
Proof.
  assert (H : parse_es_format (host := Demo.utc_host) "2024-04-23T00:00:00Z" = Some 1713830400000)
    by (vm_compute; reflexivity).
  split; [exact H |].
  split; [vm_compute; reflexivity |].
  intros o.
  destruct (@getFormattedDate_input_variants Demo.utc_host (Demo.world 0) 1713830400000 o)
    as (Hstr & _ & Hiso).
  split; [apply Hstr, H |].
  apply Hiso. vm_compute. discriminate.
Defined.

(** C9. A call of [getFormattedDate] leaves the world as it is, its
    result does not depend on the clock, and a call gives the same result
    whatever call of [getFormattedDate] came before it, a call with the
    same arguments included. *)
Theorem getFormattedDate_pure `{host : Host}
    (w : World) (t : DateInput) (o : option Options) :
  snd (getFormattedDate t o w) = w
  /\ (forall c : Z,
        fst (getFormattedDate t o (at_clock w c)) = fst (getFormattedDate t o w))
  /\ (forall (t' : DateInput) (o' : option Options),
        fst (getFormattedDate t o (snd (getFormattedDate t' o' w)))
        = fst (getFormattedDate t o w))
  /\ getFormattedDate t o (snd (getFormattedDate t o w)) = getFormattedDate t o w.
Proof.
  assert (Hsnd : forall t1 o1 w1, snd (getFormattedDate t1 o1 w1) = w1).
  { intros t1 [o1 |] w1; reflexivity. }
  split; [apply Hsnd |].
  split; [intros c; destruct o; reflexivity |].
  split; [intros t' o' |]; rewrite Hsnd; reflexivity.
Qed.

(** C10, as the code has it. Once the module has loaded, for every date
    input that denotes an instant, and options in the configuration that
    are date-like, the call with an empty override object returns what the
    call without override returns. *)
Theorem getFormattedDate_empty_override `{host : Host}
    (cfg : SiteConfig) (t0 : Z) (w : World) (t : DateInput) (x c : Z) :
  module_init cfg t0 = Ok w ->
  DateValue (new_Date t) = Some x ->
  date_like (options (date cfg)) = true ->
  getFormattedDate t (Some ∅) (at_clock w c) = getFormattedDate t None (at_clock w c).
Proof.
  intros Hinit Hvalid Hlike.
  destruct (module_init_inv cfg t0 w Hinit) as [Hcfg Hdf].
  rewrite getFormattedDate_override_eq, getFormattedDate_default_eq.
  cbn [at_clock siteConfig dateFormat]. rewrite Hcfg, shallow_merge_empty.
  f_equal. unfold DateTimeFormat_format.
  destruct (new_Date t) as [tv]; cbn [DateValue] in *. subst tv.
  apply toLocaleDateString_as_formatter; assumption.
Qed.

Lemma getFormattedDate_empty_override_witness :
  getFormattedDate (host := Demo.utc_host) (InNumber (NInt 1713830400000)) (Some ∅)
    (at_clock (Demo.world 0) 5)
  = getFormattedDate (host := Demo.utc_host) (InNumber (NInt 1713830400000)) None
      (at_clock (Demo.world 0) 5).
Proof.
  apply (@getFormattedDate_empty_override Demo.utc_host Demo.config 0 (Demo.world 0)
           (InNumber (NInt 1713830400000)) 1713830400000 5);
    vm_compute; reflexivity.
Defined.

(** C10, as stated, fails: for the Number NaN the call with an empty
    override object returns "Invalid Date" and the call without override
    throws a RangeError. *)
Lemma getFormattedDate_empty_override_counterexample :
  module_init (host := Demo.utc_host) Demo.config 0 = Ok (Demo.world 0)
  /\ fst (getFormattedDate (host := Demo.utc_host) (InNumber NNaN) (Some ∅) (Demo.world 0))
     = Ok "Invalid Date"
  /\ fst (getFormattedDate (host := Demo.utc_host) (InNumber NNaN) None (Demo.world 0))
     = Throw RangeError
  /\ ~ (forall t : DateInput,
          getFormattedDate (host := Demo.utc_host) t (Some ∅) (Demo.world 0)
          = getFormattedDate (host := Demo.utc_host) t None (Demo.world 0)).
Proof.
  split; [vm_compute; reflexivity |].
  split; [vm_compute; reflexivity |].
  split; [vm_compute; reflexivity |].
  intros H. specialize (H (InNumber NNaN)).
  apply (f_equal fst) in H. vm_compute in H. discriminate H.
Qed.

(** ** The scenarios of the spec, on the concrete host *)

Section Scenarios.
#[local] Existing Instance Demo.utc_host.

Example module_loads : module_init Demo.config 0 = Ok (Demo.world 0).
Proof. vm_compute. reflexivity. Qed.

Example format_date_object :
  fst (getFormattedDate (InDate (new_Date_components 2024 3 23)) None (Demo.world 0))
  = Ok "April 23, 2024".
Proof. vm_compute. reflexivity. Qed.

Example format_short_month :
  fst (getFormattedDate (InString "2024-04-23T00:00:00Z")
         (Some {["month" := VString "short"]}) (Demo.world 0))
  = Ok "Apr 23, 2024".
Proof. vm_compute. reflexivity. Qed.

Example format_epoch_ms :
  fst (getFormattedDate (InNumber (NInt 1713830400000))
         (Some {["month" := VString "short"]}) (Demo.world 0))
  = Ok "Apr 23, 2024".
Proof. vm_compute. reflexivity. Qed.

(** An override key whose value is undefined still replaces the configured
    value: the month is no longer asked for. *)
Example format_undefined_month :
  fst (getFormattedDate (InNumber (NInt 1713830400000))
         (Some {["month" := VUndefined]}) (Demo.world 0))
  = Ok "2024 (day: 23)".
Proof. vm_compute. reflexivity. Qed.

(** With options that ask for the hour only, the cached formatter prints
    the hour and the one-shot date call adds the date: the two paths differ
    for a valid date. *)
Example hour_only_paths_differ :
  module_init Demo.config_hour 0 = Ok (Demo.world_hour 0)
  /\ fst (getFormattedDate (InNumber (NInt 1713830400000)) None (Demo.world_hour 0))
     = Ok "12 AM"
  /\ fst (getFormattedDate (InNumber (NInt 1713830400000)) (Some ∅) (Demo.world_hour 0))
     = Ok "4/23/2024, 12 AM".
Proof. repeat split; vm_compute; reflexivity. Qed.

(** The age turns 22 on 28 September 2025 at 08:02:24 local time, when 22
    average years have elapsed, not at the start of the 29th. *)
Example age_turns_on_the_28th :
  fst (getAge (Demo.world (1759017600000 + 28943999))) = Ok (Some 21)
  /\ fst (getAge (Demo.world (1759017600000 + 28944000))) = Ok (Some 22).
Proof. split; vm_compute; reflexivity. Qed.

End Scenarios.

(** * Further properties of the module *)

(** ** [getAge] and the calendar *)

Section AgeCalendar.
Context {host : Host}.

Lemma birthdays_checked : forallb birthday_ages_ok (seqZ 1 98) = true.
Proof. vm_compute. reflexivity. Qed.

Lemma birthday_ages_ok_range (k : Z) : 1 <= k <= 98 -> birthday_ages_ok k = true.
Proof.
  intros Hk.
  pose proof birthdays_checked as Hall.
  rewrite forallb_forall in Hall. apply Hall.
  apply list_elem_of_In, elem_of_seqZ. lia.
Qed.

Lemma getAge_at (w : World) (c : Z) :
  fst (getAge (at_clock w c)) = Ok (Some ((c - birth_instant) / 31556952000)).
Proof. rewrite getAge_eq. reflexivity. Qed.

End AgeCalendar.

(** X1. The age returned at the clock reading [c] is [a] exactly while
    [birth + a * 31556952000 <= c < birth + (a + 1) * 31556952000]. *)
Theorem getAge_bracket `{host : Host} (w : World) (a : Z) :
  getAge w = (Ok (Some a), w)
  <-> birth_instant + a * 31556952000 <= clock w
      < birth_instant + (a + 1) * 31556952000.
Proof.
  rewrite getAge_eq. unfold elapsed_periods.
  pose proof (Z.div_mod (clock w - birth_instant) 31556952000 ltac:(lia)) as Hdm.
  pose proof (Z.mod_pos_bound (clock w - birth_instant) 31556952000 ltac:(lia)) as Hb.
  split.
  - intros Heq. injection Heq as <-. lia.
  - intros Hrange. do 3 f_equal.
    symmetry. apply (Z.div_unique_pos _ _ a (clock w - birth_instant - 31556952000 * a)); lia.
Qed.

(** X2. Moving the clock by [k] whole periods, forward or backward, moves the
    age by exactly [k]. *)
Theorem getAge_shift `{host : Host} (w : World) (c k : Z) :
  exists a : Z,
    fst (getAge (at_clock w c)) = Ok (Some a)
    /\ fst (getAge (at_clock w (c + k * 31556952000))) = Ok (Some (a + k)).
Proof.
  exists ((c - birth_instant) / 31556952000).
  rewrite !getAge_at. split; [reflexivity |].
  do 2 f_equal.
  replace (c + k * 31556952000 - birth_instant)
    with (c - birth_instant + k * 31556952000) by lia.
  apply Z.div_add. lia.
Qed.

(** X3. On a host whose offset from UTC is constant, for each of the birthdays
    1 to 98 (2004 to 2101): [new Date(2003 + k, 8, 29)] is a valid date; at
    its instant, the start of the birthday, [getAge] returns [k]; two days
    before that instant it returns [k - 1]; and up to the birthday 36 it
    returns [k - 1] one day before, too. *)
Theorem getAge_on_birthdays `{host : Host} (w : World) (k : Z) :
  1 <= k <= 98 ->
  (forall t : Z, LocalTZA t false = LocalTZA birth_local false) ->
  getTime (new_Date_components (2003 + k) 8 29) = Some (UTC (birthday_local k))
  /\ fst (getAge (at_clock w (UTC (birthday_local k)))) = Ok (Some k)
  /\ fst (getAge (at_clock w (UTC (birthday_local k - 2 * msPerDay)))) = Ok (Some (k - 1))
  /\ (k <= 36 ->
      fst (getAge (at_clock w (UTC (birthday_local k - msPerDay)))) = Ok (Some (k - 1))).
Proof.
  intros Hk Hconst.
  pose proof (birthday_ages_ok_range k Hk) as Hok.
  unfold birthday_ages_ok in Hok.
  apply andb_prop in Hok as [Hok H1]. apply andb_prop in Hok as [Hok H2].
  apply andb_prop in Hok as [Hrange Hk0].
  apply Z.leb_le in Hrange. apply Z.eqb_eq in Hk0, H2.
  pose proof (LocalTZA_bound birth_local false) as Hoff.
  assert (Hel : forall d : Z,
             UTC (birthday_local k - d) - birth_instant
             = birthday_local k - birth_local - d).
  { intros d. unfold UTC, birth_instant. rewrite Hconst. lia. }
  split; [| split; [| split]].
  - unfold getTime, new_Date_components; cbn [DateValue].
    destruct (Z.leb_spec 0 (2003 + k)); destruct (Z.leb_spec (2003 + k) 99);
      cbn [andb]; try lia.
    fold (birthday_local k). apply TimeClipZ_in_range.
    unfold UTC. rewrite Hconst. unfold msPerDay, maxTime in *. lia.
  - rewrite getAge_at.
    replace (birthday_local k) with (birthday_local k - 0) at 1 by lia.
    rewrite Hel, Z.sub_0_r, Hk0. reflexivity.
  - rewrite getAge_at, Hel, H2. reflexivity.
  - intros Hk36. rewrite getAge_at, Hel.
    apply orb_prop in H1 as [Hgt | Hday].
    + apply negb_true_iff, Z.leb_gt in Hgt. lia.
    + apply Z.eqb_eq in Hday. rewrite Hday. reflexivity.
Qed.

Lemma getAge_on_birthdays_witness :
  fst (@getAge Demo.utc_host (at_clock (Demo.world 0) (@UTC Demo.utc_host (birthday_local 22))))
    = Ok (Some 22)
  /\ fst (@getAge Demo.utc_host
            (at_clock (Demo.world 0) (@UTC Demo.utc_host (birthday_local 22 - msPerDay))))
    = Ok (Some (22 - 1)).
Proof.
  destruct (@getAge_on_birthdays Demo.utc_host (Demo.world 0) 22)
    as (_ & Hday & _ & Hbefore).
  - lia.
  - intros t. reflexivity.
  - split; [exact Hday | apply Hbefore; lia].
Defined.

(** The bounds are sharp: one day before the start of the birthday 37 the
    age is 37 already, and at the start of the birthday 99 it is still
    98. *)
Example getAge_birthday_bounds_sharp :
  fst (@getAge Demo.utc_host
         (at_clock (Demo.world 0) (@UTC Demo.utc_host (birthday_local 37 - msPerDay))))
    = Ok (Some 37)
  /\ fst (@getAge Demo.utc_host
            (at_clock (Demo.world 0) (@UTC Demo.utc_host (birthday_local 99))))
    = Ok (Some 98).
Proof. split; vm_compute; reflexivity. Qed.

(** ** [getFormattedDate]: the override options *)

Section Overrides.
Context {host : Host}.

Lemma lookup_object_spread3 (a b c : Options) (k : string) :
  object_spread [a; b; c] !! k =
    match c !! k with
    | Some v => Some v
    | None => match b !! k with
              | Some v => Some v
              | None => a !! k
              end
    end.
Proof.
  unfold object_spread; cbn [foldl].
  rewrite !lookup_CopyDataProperties, lookup_empty.
  destruct (c !! k), (b !! k), (a !! k); reflexivity.
Qed.

Lemma shallow_merge_subseteq (base o : Options) :
  o ⊆ base -> shallow_merge base o = base.
Proof.
  intros Hsub. apply map_eq. intros k. rewrite lookup_shallow_merge.
  destruct (o !! k) as [v |] eqn:E; [| reflexivity].
  symmetry. exact (lookup_weaken o base k v E Hsub).
Qed.

Lemma is_defined_shallow_merge (base o : Options) (k : string) :
  is_defined (shallow_merge base o) k =
    match o !! k with
    | Some _ => is_defined o k
    | None => is_defined base k
    end.
Proof.
  unfold is_defined. rewrite lookup_shallow_merge.
  destruct (o !! k); reflexivity.
Qed.

(** For a finite time value and date-like options the one-shot date call
    completes as making a formatter from the options and applying it
    does, errors of the constructor included. *)
Lemma toLocaleDateString_as_constructor (l : string) (o : Options) (x : Z) :
  date_like o = true ->
  toLocaleDateString (mkDate (Some x)) l o =
    (df ← new_DateTimeFormat l o; FormatDateTime df (Some x)).
Proof.
  intros Hlike.
  unfold toLocaleDateString; cbn [DateValue].
  rewrite (create_date_as_any l o Hlike). reflexivity.
Qed.

(** With a time style the one-shot date call throws: the error of the
    validation if the host rejects the locale or an option value, else a
    TypeError. *)
Lemma toLocaleDateString_timeStyle (l : string) (o : Options) (x : Z) :
  is_defined o "timeStyle" = true ->
  toLocaleDateString (mkDate (Some x)) l o =
    Throw (match dtf_reject l o with Some e => e | None => TypeError end).
Proof.
  intros Hts. unfold toLocaleDateString, CreateDateTimeFormat; cbn [DateValue].
  destruct (dtf_reject l o); [reflexivity |].
  rewrite Hts, orb_true_r.
  destruct (existsb (is_defined o) format_components); [reflexivity |].
  destruct (is_defined o "dateStyle"); reflexivity.
Qed.

End Overrides.

(** X4. Overrides compose: a call whose override is itself the spread of two
    option bags formats with the spread of the configured options and the
    two bags, in which the later bag wins over the earlier and both win
    over the configuration. *)
Theorem getFormattedDate_override_composes `{host : Host}
    (w : World) (t : DateInput) (o1 o2 : Options) :
  getFormattedDate t (Some (object_spread [o1; o2])) w =
    (toLocaleDateString (new_Date t) (locale (date (siteConfig w)))
       (object_spread [options (date (siteConfig w)); o1; o2]), w)
  /\ forall k : string,
       object_spread [options (date (siteConfig w)); o1; o2] !! k =
         match o2 !! k with
         | Some v => Some v
         | None => match o1 !! k with
                   | Some v => Some v
                   | None => options (date (siteConfig w)) !! k
                   end
         end.
Proof.
  split; [| intros k; apply lookup_object_spread3].
  rewrite getFormattedDate_override_eq. do 2 f_equal.
  apply map_eq. intros k.
  rewrite lookup_shallow_merge, lookup_object_spread3, object_spread_pair,
    lookup_shallow_merge.
  destruct (o2 !! k), (o1 !! k); reflexivity.
Qed.

(** X5. An override shadows the configuration: under one locale, two
    configurations whose options agree on every key the override does not
    have give the same result for that override. *)
Theorem getFormattedDate_override_shadows `{host : Host}
    (w w' : World) (t : DateInput) (o : Options) :
  locale (date (siteConfig w)) = locale (date (siteConfig w')) ->
  (forall k : string,
     o !! k = None ->
     options (date (siteConfig w)) !! k = options (date (siteConfig w')) !! k) ->
  fst (getFormattedDate t (Some o) w) = fst (getFormattedDate t (Some o) w').
Proof.
  intros Hloc Hagree.
  rewrite !getFormattedDate_override_eq; cbn [fst]. rewrite Hloc. f_equal.
  apply map_eq. intros k. rewrite !lookup_shallow_merge.
  destruct (o !! k) eqn:E; [reflexivity | apply Hagree, E].
Qed.

Lemma getFormattedDate_override_shadows_witness :
  fst (getFormattedDate (host := Demo.utc_host) (InNumber (NInt 1713830400000))
         (Some {["hour" := VUndefined]}) (Demo.world_hour 0))
  = fst (getFormattedDate (host := Demo.utc_host) (InNumber (NInt 1713830400000))
           (Some {["hour" := VUndefined]})
           (mkWorld (mkSiteConfig (mkDateConfig "en-US" ∅)) Demo.formatter 7)).
Proof.
  apply (@getFormattedDate_override_shadows Demo.utc_host).
  - reflexivity.
  - intros k Hk. cbn [siteConfig date options Demo.world_hour Demo.config_hour].
    destruct (decide (k = "hour")) as [-> | Hne].
    + rewrite lookup_singleton_eq in Hk. discriminate Hk.
    + rewrite lookup_singleton_ne, lookup_empty by congruence. reflexivity.
Defined.

(** X6. An override that only repeats configured values changes nothing: once
    the module has loaded, for an input that denotes an instant and
    date-like configured options, a call whose override is contained in
    the configured options returns what the call without override
    returns. *)
Theorem getFormattedDate_redundant_override `{host : Host}
    (cfg : SiteConfig) (t0 : Z) (w : World) (t : DateInput) (o : Options) (x c : Z) :
  module_init cfg t0 = Ok w ->
  DateValue (new_Date t) = Some x ->
  date_like (options (date cfg)) = true ->
  o ⊆ options (date cfg) ->
  getFormattedDate t (Some o) (at_clock w c) = getFormattedDate t None (at_clock w c).
Proof.
  intros Hinit Hvalid Hlike Hsub.
  destruct (module_init_inv cfg t0 w Hinit) as [Hcfg Hdf].
  rewrite getFormattedDate_override_eq, getFormattedDate_default_eq.
  cbn [at_clock siteConfig dateFormat].
  rewrite Hcfg, (shallow_merge_subseteq _ _ Hsub).
  f_equal. unfold DateTimeFormat_format.
  destruct (new_Date t) as [tv]; cbn [DateValue] in *. subst tv.
  apply toLocaleDateString_as_formatter; assumption.
Qed.

Lemma getFormattedDate_redundant_override_witness :
  getFormattedDate (host := Demo.utc_host) (InNumber (NInt 1713830400000))
    (Some {["month" := VString "long"]}) (at_clock (Demo.world 0) 5)
  = getFormattedDate (host := Demo.utc_host) (InNumber (NInt 1713830400000)) None
      (at_clock (Demo.world 0) 5).
Proof.
  apply (@getFormattedDate_redundant_override Demo.utc_host Demo.config 0 (Demo.world 0)
           (InNumber (NInt 1713830400000)) {["month" := VString "long"]} 1713830400000 5).
  - vm_compute. reflexivity.
  - vm_compute. reflexivity.
  - vm_compute. reflexivity.
  - apply map_subseteq_spec. intros k v Hk.
    destruct (decide (k = "month")) as [-> | Hne].
    + rewrite lookup_singleton_eq in Hk. injection Hk as <-. reflexivity.
    + rewrite lookup_singleton_ne in Hk by congruence. discriminate Hk.
Defined.

(** X7. For an input that denotes an instant and merged options that are
    date-like, the call with an override completes exactly as making a
    formatter from the configured locale and the merged options and
    applying it to the date does: the same string, or the error of the
    constructor. *)
Theorem getFormattedDate_override_as_formatter `{host : Host}
    (w : World) (t : DateInput) (o : Options) (x : Z) :
  DateValue (new_Date t) = Some x ->
  date_like (shallow_merge (options (date (siteConfig w))) o) = true ->
  getFormattedDate t (Some o) w =
    (df ← new_DateTimeFormat (locale (date (siteConfig w)))
            (shallow_merge (options (date (siteConfig w))) o);
     DateTimeFormat_format df (new_Date t), w).
Proof.
  intros Hvalid Hlike.
  rewrite getFormattedDate_override_eq. f_equal.
  unfold DateTimeFormat_format.
  destruct (new_Date t) as [tv]; cbn [DateValue] in *. subst tv.
  apply toLocaleDateString_as_constructor, Hlike.
Qed.

Lemma getFormattedDate_override_as_formatter_witness :
  fst (getFormattedDate (host := Demo.utc_host) (InNumber (NInt 1713830400000))
         (Some {["month" := VString "short"]}) (Demo.world 0))
  = (df ← new_DateTimeFormat (host := Demo.utc_host) "en-US"
            (shallow_merge (options (date Demo.config)) {["month" := VString "short"]});
     DateTimeFormat_format (host := Demo.utc_host) df
       (new_Date (host := Demo.utc_host) (InNumber (NInt 1713830400000)))).
Proof.
  apply (f_equal fst
    (@getFormattedDate_override_as_formatter Demo.utc_host (Demo.world 0)
       (InNumber (NInt 1713830400000)) {["month" := VString "short"]} 1713830400000
       ltac:(vm_compute; reflexivity) ltac:(vm_compute; reflexivity))).
Defined.

(** X8. A time style cannot be used: for an input that denotes an
    instant, a call whose override defines [timeStyle], or whose override
    leaves the key out while the configuration defines it, returns no
    string. It throws the error of the validation if the host rejects the
    locale or a value of the merged options, and a TypeError otherwise. *)
Theorem getFormattedDate_timeStyle_throws `{host : Host}
    (w : World) (t : DateInput) (o : Options) (x : Z) :
  DateValue (new_Date t) = Some x ->
  is_defined o "timeStyle" = true
  \/ (o !! "timeStyle" = None
      /\ is_defined (options (date (siteConfig w))) "timeStyle" = true) ->
  getFormattedDate t (Some o) w =
    (Throw (match dtf_reject (locale (date (siteConfig w)))
                    (shallow_merge (options (date (siteConfig w))) o) with
            | Some e => e
            | None => TypeError
            end), w).
Proof.
  intros Hvalid Hts.
  rewrite getFormattedDate_override_eq. f_equal.
  destruct (new_Date t) as [tv]; cbn [DateValue] in *. subst tv.
  apply toLocaleDateString_timeStyle.
  rewrite is_defined_shallow_merge.
  destruct Hts as [Ho | [Hnone Hbase]].
  - unfold is_defined in Ho |- *. destruct (o !! "timeStyle"); [exact Ho | discriminate Ho].
  - rewrite Hnone. exact Hbase.
Qed.

Lemma getFormattedDate_timeStyle_throws_witness :
  getFormattedDate (host := Demo.utc_host) (InNumber (NInt 1713830400000))
    (Some {["timeStyle" := VString "short"]}) (Demo.world 0)
  = (Throw TypeError, Demo.world 0).
Proof.
  apply (@getFormattedDate_timeStyle_throws Demo.utc_host (Demo.world 0)
           (InNumber (NInt 1713830400000)) {["timeStyle" := VString "short"]} 1713830400000).
  - vm_compute. reflexivity.
  - left. vm_compute. reflexivity.
Defined.

(** ** [getFormattedDate]: Number inputs *)

(** X9. An integer of magnitude at most 8640000000000000 is formatted to a
    string by the call without override; for a larger one that call throws
    a RangeError and every call with an override returns
    "Invalid Date". *)
Theorem getFormattedDate_integer_range `{host : Host} (w : World) (t : Z) :
  (Z.abs t <= 8640000000000000 ->
     getFormattedDate (InNumber (NInt t)) None w =
       (Ok (dtf_render (dtf_locale (dateFormat w)) (dtf_options (dateFormat w)) t), w))
  /\ (8640000000000000 < Z.abs t ->
        getFormattedDate (InNumber (NInt t)) None w = (Throw RangeError, w)
        /\ forall o : Options,
             getFormattedDate (InNumber (NInt t)) (Some o) w = (Ok "Invalid Date", w)).
Proof.
  split.
  - intros Hin. rewrite getFormattedDate_default_eq.
    unfold DateTimeFormat_format, FormatDateTime; cbn [new_Date DateValue].
    rewrite TimeClip_NInt, TimeClipZ_idem, (TimeClipZ_in_range t Hin). reflexivity.
  - intros Hout.
    assert (Hnan : TimeClip (NInt t) = None).
    { rewrite TimeClip_NInt. unfold TimeClipZ, maxTime.
      destruct (Z.leb_spec (Z.abs t) 8640000000000000); [lia | reflexivity]. }
    split.
    + rewrite getFormattedDate_default_eq.
      unfold DateTimeFormat_format, FormatDateTime; cbn [new_Date DateValue].
      rewrite Hnan. reflexivity.
    + intros o. rewrite getFormattedDate_override_eq.
      unfold toLocaleDateString; cbn [new_Date DateValue]. rewrite Hnan. reflexivity.
Qed.

Lemma getFormattedDate_integer_range_witness :
  getFormattedDate (host := Demo.utc_host) (InNumber (NInt 8640000000000000)) None (Demo.world 0)
    = (Ok "September 13, 275760", Demo.world 0)
  /\ getFormattedDate (host := Demo.utc_host) (InNumber (NInt 8640000000000001)) None
       (Demo.world 0)
     = (Throw RangeError, Demo.world 0).
Proof.
  destruct (@getFormattedDate_integer_range Demo.utc_host (Demo.world 0) 8640000000000000)
    as [Hin _].
  destruct (@getFormattedDate_integer_range Demo.utc_host (Demo.world 0) 8640000000000001)
    as [_ Hout].
  split.
  - rewrite Hin by (vm_compute; discriminate). vm_compute. reflexivity.
  - apply Hout. reflexivity.
Defined.

(** X10. A Number with a fraction is formatted as the integer it truncates to,
    toward zero, as long as its magnitude is at most 8640000000000000. *)
Theorem getFormattedDate_truncates `{host : Host}
    (w : World) (q : Q) (o : option Options) :
  (Qabs q <= inject_Z 8640000000000000)%Q ->
  getFormattedDate (InNumber (NFinite q)) o w
  = getFormattedDate (InNumber (NInt (Qnum q ÷ Z.pos (Qden q)))) o w.
Proof.
  intros Hle.
  assert (Hd : new_Date (InNumber (NFinite q))
               = new_Date (InNumber (NInt (Qnum q ÷ Z.pos (Qden q))))).
  { cbn [new_Date]. f_equal. rewrite TimeClip_NInt. cbn [TimeClip].
    apply Qle_bool_iff in Hle as Hb. change (inject_Z maxTime) with (inject_Z 8640000000000000).
    rewrite Hb. symmetry. apply TimeClipZ_in_range.
    destruct q as [n d]. unfold Qabs, Qle, inject_Z in Hle; cbn [Qnum Qden] in *.
    rewrite Z.mul_1_r in Hle.
    rewrite <- Z.quot_abs by lia. change (Z.abs (Z.pos d)) with (Z.pos d).
    rewrite Z.quot_div_nonneg by lia.
    apply Z.div_le_upper_bound; unfold maxTime; lia. }
  destruct o as [o |].
  - rewrite !getFormattedDate_override_eq, Hd. reflexivity.
  - rewrite !getFormattedDate_default_eq, Hd. reflexivity.
Qed.

Lemma getFormattedDate_truncates_witness :
  getFormattedDate (host := Demo.utc_host) (InNumber (NFinite (-3 # 2))) None (Demo.world 0)
  = getFormattedDate (host := Demo.utc_host) (InNumber (NInt ((-3) ÷ 2))) None (Demo.world 0).
Proof.
  apply (@getFormattedDate_truncates Demo.utc_host (Demo.world 0) (-3 # 2) None).
  vm_compute. discriminate.
Defined.
